(** * npvtest.py: the density-plot demo script

    The script [FrontEnd/Python/Visualization/npvcube/npvtest.py] is a
    straight-line module body.  It imports three names, binds five more
    module globals and calls its libraries ([npvlib], [matplotlib]) five
    times.  The libraries are not part of the script: they are a parameter [lib]
    of the development, an arbitrary function from a request and the state
    of the outside world to an answer (a value or an exception) and a new
    state of the world.  The script itself is a computation in a small
    state-and-exception monad, one definition per source line. *)

From Stdlib Require Import Floats.PrimFloat.
From stdpp Require Import base gmap strings list.

Open Scope string_scope.
Open Scope list_scope.

(** ** Values, exceptions, requests *)

(** The Python values the script handles.  Modules, classes and instances
    live in the libraries; the script only holds references to them. *)
Inductive value : Type :=
  | VNone
  | VStr (s : string)
  | VInt (n : Z)
  | VFloat (f : float)
  | VObj (o : nat).

Record exn : Type := Exn { exn_class : string; exn_text : string }.

(** The callee expressions of the script: [x(...)] and [x.attr(...)],
    together with the object the name [x] was bound to at the call. *)
Inductive callee : Type :=
  | ByName (x : string) (f : value)
  | ByAttr (x : string) (obj : value) (attr : string).

Inductive request : Type :=
  | ImportFrom (module name : string)
  | ImportModule (module : string)
  | Invoke (c : callee) (args : list value) (kwargs : list (string * value)).

Inductive outcome : Type :=
  | Returned (v : value)
  | Raised (e : exn).

(** What an observer of the interpreter sees, in order of time. *)
Inductive event : Type :=
  | Bound (x : string) (v : value)
  | Asked (r : request) (o : outcome).

(** The result of a Python computation. *)
Inductive res (A : Type) : Type :=
  | Normal (a : A)
  | Raise (e : exn).
Arguments Normal {A} a.
Arguments Raise {A} e.

(** How the process ends: exit code 0, or a traceback of an exception
    nobody caught. *)
Inductive status : Type :=
  | ExitSuccess
  | Uncaught (e : exn).

(** The second positional argument of line 15, the literal [0.7]: the
    binary64 number nearest to 7/10. *)
Definition opacity : float := 0x1.6666666666666p-1%float.

Section Script.

Context {World : Type}.
Variable lib : request -> World -> outcome * World.

(** The interpreter state: the module globals, [sys.argv], the world of
    the libraries and the events so far. *)
Record interp : Type := Interp {
  globals : gmap string value;
  sys_argv : list string;
  world : World;
  trace : list event
}.

Definition py (A : Type) : Type := interp -> res A * interp.

Definition ret {A : Type} (a : A) : py A := fun s => (Normal a, s).

Definition bind {A B : Type} (m : py A) (k : A -> py B) : py B :=
  fun s =>
    match m s with
    | (Normal a, s') => k a s'
    | (Raise e, s') => (Raise e, s')
    end.

#[local] Notation "'let!' x ':=' m 'in' k" := (bind m (fun x => k))
  (at level 10, x name, m at level 100, k at level 200).
#[local] Notation "'do!' m 'in' k" := (bind m (fun _ => k))
  (at level 10, m at level 100, k at level 200).

(** Reading a global: [NameError] when the name is not bound. *)
Definition load_name (x : string) : py value :=
  fun s =>
    match globals s !! x with
    | Some v => (Normal v, s)
    | None => (Raise (Exn "NameError" x), s)
    end.

(** Binding a global. *)
Definition store_name (x : string) (v : value) : py unit :=
  fun s =>
    (Normal tt,
     {| globals := <[x := v]> (globals s);
        sys_argv := sys_argv s;
        world := world s;
        trace := trace s ++ [Bound x v] |}).

(** Asking a library: its answer is a value or an exception, and the
    world moves on in both cases. *)
Definition ask (r : request) : py value :=
  fun s =>
    let (o, w') := lib r (world s) in
    let s' := {| globals := globals s;
                 sys_argv := sys_argv s;
                 world := w';
                 trace := trace s ++ [Asked r o] |} in
    match o with
    | Returned v => (Normal v, s')
    | Raised e => (Raise e, s')
    end.

(** [x(args)] and [x.attr(args, **kwargs)], where the global [x] has
    been read as [f], respectively [obj].  Looking the attribute up and
    calling it is one request: the library may raise in either. *)
Definition call_name (x : string) (f : value) (args : list value) : py value :=
  ask (Invoke (ByName x f) args []).

Definition call_attr (x : string) (obj : value) (attr : string)
    (args : list value) (kwargs : list (string * value)) : py value :=
  ask (Invoke (ByAttr x obj attr) args kwargs).

(** ** The script, line by line *)

(** [from npvlib import NpvCube] *)
Definition line4 : py unit :=
  let! v := ask (ImportFrom "npvlib" "NpvCube") in store_name "NpvCube" v.

(** [import matplotlib.pyplot as plt] *)
Definition line5 : py unit :=
  let! v := ask (ImportModule "matplotlib.pyplot") in store_name "plt" v.

(** [from mpl_toolkits.mplot3d import Axes3D] *)
Definition line6 : py unit :=
  let! v := ask (ImportFrom "mpl_toolkits.mplot3d" "Axes3D") in
  store_name "Axes3D" v.

(** [csv_file = 'cube_full.csv'] *)
Definition line9 : py unit :=
  store_name "csv_file" (VStr "cube_full.csv").

(** [npv = NpvCube(csv_file)] *)
Definition line10 : py unit :=
  let! NpvCube := load_name "NpvCube" in
  let! csv_file := load_name "csv_file" in
  let! v := call_name "NpvCube" NpvCube [csv_file] in
  store_name "npv" v.

(** [trade = '833397AI'] *)
Definition line11 : py unit :=
  store_name "trade" (VStr "833397AI").

(** [fig = plt.figure()] *)
Definition line13 : py unit :=
  let! plt := load_name "plt" in
  let! v := call_attr "plt" plt "figure" [] [] in
  store_name "fig" v.

(** [ax = fig.add_subplot(111, projection='3d')] *)
Definition line14 : py unit :=
  let! fig := load_name "fig" in
  let! v := call_attr "fig" fig "add_subplot"
              [VInt 111] [("projection", VStr "3d")] in
  store_name "ax" v.

(** [npv.plot_density(trade, ax, 0.7)] *)
Definition line15 : py unit :=
  let! npv := load_name "npv" in
  let! trade := load_name "trade" in
  let! ax := load_name "ax" in
  do! call_attr "npv" npv "plot_density" [trade; ax; VFloat opacity] [] in
  ret tt.

(** [plt.show()] *)
Definition line16 : py unit :=
  let! plt := load_name "plt" in
  do! call_attr "plt" plt "show" [] [] in
  ret tt.

Definition script : py unit :=
  do! line4 in do! line5 in do! line6 in
  do! line9 in do! line10 in do! line11 in
  do! line13 in do! line14 in do! line15 in line16.

(** ** The process *)

Definition boot (argv : list string) (w : World) : interp :=
  {| globals := ∅; sys_argv := argv; world := w; trace := [] |}.

Record process : Type := Process { exit : status; final : interp }.

Definition run_script (argv : list string) (w : World) : process :=
  let (r, s) := script (boot argv w) in
  {| exit := match r with Normal _ => ExitSuccess | Raise e => Uncaught e end;
     final := s |}.

End Script.

Arguments interp : clear implicits.
Arguments process : clear implicits.

(** ** The requests of the script

    The eight requests the source lines make, as functions of the objects
    earlier answers put into the globals. *)

Definition import_npvlib : request := ImportFrom "npvlib" "NpvCube".
Definition import_pyplot : request := ImportModule "matplotlib.pyplot".
Definition import_axes3d : request := ImportFrom "mpl_toolkits.mplot3d" "Axes3D".

Definition new_cube (cls : value) : request :=
  Invoke (ByName "NpvCube" cls) [VStr "cube_full.csv"] [].

Definition new_figure (plt : value) : request :=
  Invoke (ByAttr "plt" plt "figure") [] [].

Definition new_surface (fig : value) : request :=
  Invoke (ByAttr "fig" fig "add_subplot") [VInt 111] [("projection", VStr "3d")].

Definition render (npv ax : value) : request :=
  Invoke (ByAttr "npv" npv "plot_density") [VStr "833397AI"; ax; VFloat opacity] [].

Definition display (plt : value) : request :=
  Invoke (ByAttr "plt" plt "show") [] [].

(** ** Reading a trace *)

Definition asked (tr : list event) : list (request * outcome) :=
  omap (fun ev => match ev with
                  | Asked r o => Some (r, o)
                  | Bound _ _ => None
                  end) tr.

Definition requests (tr : list event) : list request := (asked tr).*1.

(** A call of the name [x]: [x(...)]. *)
Definition calls_name (x : string) (r : request) : bool :=
  match r with
  | Invoke (ByName y _) _ _ => String.eqb x y
  | _ => false
  end.

(** A method call through the name [x]: [x.attr(...)] for some [attr]. *)
Definition calls_on (x : string) (r : request) : bool :=
  match r with
  | Invoke (ByAttr y _ _) _ _ => String.eqb x y
  | _ => false
  end.

(** A call of the method [attr], whatever the receiver. *)
Definition calls_method (attr : string) (r : request) : bool :=
  match r with
  | Invoke (ByAttr _ _ a) _ _ => String.eqb attr a
  | _ => false
  end.

Definition is_cube_ctor : request -> bool := calls_name "NpvCube".
Definition is_figure : request -> bool := calls_method "figure".
Definition is_surface : request -> bool := calls_method "add_subplot".
Definition is_render : request -> bool := calls_method "plot_density".
Definition is_display : request -> bool := calls_method "show".

Definition returned (o : outcome) : bool :=
  match o with Returned _ => true | Raised _ => false end.

(** The five steps of the system overview.  The cube is loaded and the
    surface is created when the library returns them; the record key is
    selected when [trade] is bound; the render and display calls are made
    when they are asked, whatever the answer. *)
Inductive step : Type :=
  | LoadCube
  | SelectKey
  | CreateSurface
  | RenderCall
  | DisplayCall.

Definition step_of (ev : event) : option step :=
  match ev with
  | Bound x _ => if String.eqb x "trade" then Some SelectKey else None
  | Asked r o =>
      if is_cube_ctor r then (if returned o then Some LoadCube else None)
      else if is_surface r then (if returned o then Some CreateSurface else None)
      else if is_render r then Some RenderCall
      else if is_display r then Some DisplayCall
      else None
  end.

Definition steps (tr : list event) : list step := omap step_of tr.

Definition five_steps : list step :=
  [LoadCube; SelectKey; CreateSurface; RenderCall; DisplayCall].

(** ** A sample world

    A concrete [lib] to run the script against: a machine with a disk, a
    display that may be missing, and the libraries of the script on it. *)

Record machine : Type := Machine {
  allocated : nat;                      (* objects handed out so far *)
  disk : gmap string (list string);     (* cube files: name to record keys *)
  loaded : list string;                 (* record keys of the cube in memory *)
  has_display : bool;
  windows : nat                         (* viewer windows shown so far *)
}.

Definition alloc (m : machine) : outcome * machine :=
  (Returned (VObj (allocated m)),
   {| allocated := S (allocated m); disk := disk m; loaded := loaded m;
      has_display := has_display m; windows := windows m |}).

(** Modelled from the spec: the collaborators missing from the sources,
    [NpvCube] of [npvlib] and [matplotlib], as the smoke tests of the spec
    describe them.  The cube constructor fails with a file-not-found error
    on a missing file, the render call fails with a lookup error on a
    record key absent from the cube, the display call shows a window. *)
Definition desktop (r : request) (m : machine) : outcome * machine :=
  match r with
  | ImportFrom _ _ | ImportModule _ => alloc m
  | Invoke (ByName _ _) [VStr path] [] =>
      match disk m !! path with
      | Some keys =>
          (Returned (VObj (allocated m)),
           {| allocated := S (allocated m); disk := disk m; loaded := keys;
              has_display := has_display m; windows := windows m |})
      | None => (Raised (Exn "FileNotFoundError" path), m)
      end
  | Invoke (ByName _ _) _ _ => (Raised (Exn "TypeError" "NpvCube"), m)
  | Invoke (ByAttr _ _ attr) args _ =>
      if is_figure r then
        if has_display m then alloc m
        else (Raised (Exn "TclError" "no display name"), m)
      else if is_surface r then alloc m
      else if is_render r then
        match args with
        | VStr key :: _ =>
            if existsb (String.eqb key) (loaded m)
            then (Returned VNone, m)
            else (Raised (Exn "KeyError" key), m)
        | _ => (Raised (Exn "TypeError" attr), m)
        end
      else if is_display r then
        (Returned VNone,
         {| allocated := allocated m; disk := disk m; loaded := loaded m;
            has_display := has_display m; windows := S (windows m) |})
      else (Raised (Exn "AttributeError" attr), m)
  end.

(** Modelled from the spec: a valid [cube_full.csv] containing record key
    [833397AI]. *)
Definition valid_box : machine :=
  {| allocated := 0; disk := {["cube_full.csv" := ["833397AI"; "833398BK"]]};
     loaded := []; has_display := true; windows := 0 |}.

(** Modelled from the spec: the file is missing. *)
Definition no_file : machine :=
  {| allocated := 0; disk := ∅; loaded := []; has_display := true; windows := 0 |}.

(** Modelled from the spec: the record key is absent from the cube. *)
Definition other_trades : machine :=
  {| allocated := 0; disk := {["cube_full.csv" := ["833398BK"]]};
     loaded := []; has_display := true; windows := 0 |}.

(** A machine without a display: the cube loads, [plt.figure()] fails. *)
Definition headless : machine :=
  {| allocated := 0; disk := {["cube_full.csv" := ["833397AI"; "833398BK"]]};
     loaded := []; has_display := false; windows := 0 |}.

(** ** The executions of the script

    The script is a straight line of eight requests, so it has nine kinds
    of execution: it stops at the first request that raises, or it runs to
    the end.  [done_k] is the trace and [bound_k] the globals once line [k]
    has completed. *)

Definition done4 (cls : value) : list event :=
  [Asked import_npvlib (Returned cls); Bound "NpvCube" cls].
Definition done5 (cls plt : value) : list event :=
  done4 cls ++ [Asked import_pyplot (Returned plt); Bound "plt" plt].
Definition done9 (cls plt a3d : value) : list event :=
  done5 cls plt ++
  [Asked import_axes3d (Returned a3d); Bound "Axes3D" a3d;
   Bound "csv_file" (VStr "cube_full.csv")].
Definition done11 (cls plt a3d npv : value) : list event :=
  done9 cls plt a3d ++
  [Asked (new_cube cls) (Returned npv); Bound "npv" npv;
   Bound "trade" (VStr "833397AI")].
Definition done13 (cls plt a3d npv fig : value) : list event :=
  done11 cls plt a3d npv ++ [Asked (new_figure plt) (Returned fig); Bound "fig" fig].
Definition done14 (cls plt a3d npv fig ax : value) : list event :=
  done13 cls plt a3d npv fig ++ [Asked (new_surface fig) (Returned ax); Bound "ax" ax].
Definition done15 (cls plt a3d npv fig ax r15 : value) : list event :=
  done14 cls plt a3d npv fig ax ++ [Asked (render npv ax) (Returned r15)].
Definition done16 (cls plt a3d npv fig ax r15 r16 : value) : list event :=
  done15 cls plt a3d npv fig ax r15 ++ [Asked (display plt) (Returned r16)].

Definition bound4 (cls : value) : gmap string value :=
  <["NpvCube" := cls]> ∅.
Definition bound5 (cls plt : value) : gmap string value :=
  <["plt" := plt]> (bound4 cls).
Definition bound9 (cls plt a3d : value) : gmap string value :=
  <["csv_file" := VStr "cube_full.csv"]> (<["Axes3D" := a3d]> (bound5 cls plt)).
Definition bound11 (cls plt a3d npv : value) : gmap string value :=
  <["trade" := VStr "833397AI"]> (<["npv" := npv]> (bound9 cls plt a3d)).
Definition bound13 (cls plt a3d npv fig : value) : gmap string value :=
  <["fig" := fig]> (bound11 cls plt a3d npv).
Definition bound14 (cls plt a3d npv fig ax : value) : gmap string value :=
  <["ax" := ax]> (bound13 cls plt a3d npv fig).

Section Executions.

Context {World : Type}.
Variable lib : request -> World -> outcome * World.
Variable argv : list string.
Variable w0 : World.

(** The process that died of [e], raised by the request [r]. *)
Definition died (g : gmap string value) (w : World) (before : list event)
    (r : request) (e : exn) : process World :=
  {| exit := Uncaught e;
     final := {| globals := g; sys_argv := argv; world := w;
                 trace := before ++ [Asked r (Raised e)] |} |}.

Inductive execution : process World -> Prop :=
| stop_line4 e w1 :
    lib import_npvlib w0 = (Raised e, w1) ->
    execution (died ∅ w1 [] import_npvlib e)
| stop_line5 cls e w1 w2 :
    lib import_npvlib w0 = (Returned cls, w1) ->
    lib import_pyplot w1 = (Raised e, w2) ->
    execution (died (bound4 cls) w2 (done4 cls) import_pyplot e)
| stop_line6 cls plt e w1 w2 w3 :
    lib import_npvlib w0 = (Returned cls, w1) ->
    lib import_pyplot w1 = (Returned plt, w2) ->
    lib import_axes3d w2 = (Raised e, w3) ->
    execution (died (bound5 cls plt) w3 (done5 cls plt) import_axes3d e)
| stop_line10 cls plt a3d e w1 w2 w3 w4 :
    lib import_npvlib w0 = (Returned cls, w1) ->
    lib import_pyplot w1 = (Returned plt, w2) ->
    lib import_axes3d w2 = (Returned a3d, w3) ->
    lib (new_cube cls) w3 = (Raised e, w4) ->
    execution (died (bound9 cls plt a3d) w4 (done9 cls plt a3d) (new_cube cls) e)
| stop_line13 cls plt a3d npv e w1 w2 w3 w4 w5 :
    lib import_npvlib w0 = (Returned cls, w1) ->
    lib import_pyplot w1 = (Returned plt, w2) ->
    lib import_axes3d w2 = (Returned a3d, w3) ->
    lib (new_cube cls) w3 = (Returned npv, w4) ->
    lib (new_figure plt) w4 = (Raised e, w5) ->
    execution (died (bound11 cls plt a3d npv) w5 (done11 cls plt a3d npv)
                    (new_figure plt) e)
| stop_line14 cls plt a3d npv fig e w1 w2 w3 w4 w5 w6 :
    lib import_npvlib w0 = (Returned cls, w1) ->
    lib import_pyplot w1 = (Returned plt, w2) ->
    lib import_axes3d w2 = (Returned a3d, w3) ->
    lib (new_cube cls) w3 = (Returned npv, w4) ->
    lib (new_figure plt) w4 = (Returned fig, w5) ->
    lib (new_surface fig) w5 = (Raised e, w6) ->
    execution (died (bound13 cls plt a3d npv fig) w6 (done13 cls plt a3d npv fig)
                    (new_surface fig) e)
| stop_line15 cls plt a3d npv fig ax e w1 w2 w3 w4 w5 w6 w7 :
    lib import_npvlib w0 = (Returned cls, w1) ->
    lib import_pyplot w1 = (Returned plt, w2) ->
    lib import_axes3d w2 = (Returned a3d, w3) ->
    lib (new_cube cls) w3 = (Returned npv, w4) ->
    lib (new_figure plt) w4 = (Returned fig, w5) ->
    lib (new_surface fig) w5 = (Returned ax, w6) ->
    lib (render npv ax) w6 = (Raised e, w7) ->
    execution (died (bound14 cls plt a3d npv fig ax) w7
                    (done14 cls plt a3d npv fig ax) (render npv ax) e)
| stop_line16 cls plt a3d npv fig ax r15 e w1 w2 w3 w4 w5 w6 w7 w8 :
    lib import_npvlib w0 = (Returned cls, w1) ->
    lib import_pyplot w1 = (Returned plt, w2) ->
    lib import_axes3d w2 = (Returned a3d, w3) ->
    lib (new_cube cls) w3 = (Returned npv, w4) ->
    lib (new_figure plt) w4 = (Returned fig, w5) ->
    lib (new_surface fig) w5 = (Returned ax, w6) ->
    lib (render npv ax) w6 = (Returned r15, w7) ->
    lib (display plt) w7 = (Raised e, w8) ->
    execution (died (bound14 cls plt a3d npv fig ax) w8
                    (done15 cls plt a3d npv fig ax r15) (display plt) e)
| completed cls plt a3d npv fig ax r15 r16 w1 w2 w3 w4 w5 w6 w7 w8 :
    lib import_npvlib w0 = (Returned cls, w1) ->
    lib import_pyplot w1 = (Returned plt, w2) ->
    lib import_axes3d w2 = (Returned a3d, w3) ->
    lib (new_cube cls) w3 = (Returned npv, w4) ->
    lib (new_figure plt) w4 = (Returned fig, w5) ->
    lib (new_surface fig) w5 = (Returned ax, w6) ->
    lib (render npv ax) w6 = (Returned r15, w7) ->
    lib (display plt) w7 = (Returned r16, w8) ->
    execution {| exit := ExitSuccess;
                 final := {| globals := bound14 cls plt a3d npv fig ax;
                             sys_argv := argv; world := w8;
                             trace := done16 cls plt a3d npv fig ax r15 r16 |} |}.

End Executions.

(** ** Computations without a handler, computations blind to [sys.argv] *)

Section Disciplines.

Context {World : Type}.

(** No request of the trace was answered by an exception. *)
Definition quiet (t : list event) : Prop :=
  forall r e, ~ In (Asked r (Raised e)) t.

(** [m] catches nothing: started on a quiet trace, it ends normally on a
    quiet trace, or it ends with an exception that is its own (the trace
    stays quiet) or the one a library raised in the last event. *)
Definition propagates {A : Type} (m : @py World A) : Prop :=
  forall s, quiet (trace s) ->
    match m s with
    | (Normal _, s') => quiet (trace s')
    | (Raise e, s') =>
        quiet (trace s') \/
        exists t r, trace s' = t ++ [Asked r (Raised e)] /\ quiet t
    end.

(** Two interpreter states that differ at most in [sys.argv]. *)
Definition agree (s1 s2 : interp World) : Prop :=
  globals s1 = globals s2 /\ world s1 = world s2 /\ trace s1 = trace s2.

(** [m] does not look at [sys.argv]. *)
Definition argv_blind {A : Type} (m : @py World A) : Prop :=
  forall s1 s2, agree s1 s2 ->
    fst (m s1) = fst (m s2) /\ agree (snd (m s1)) (snd (m s2)).

End Disciplines.

(** A request satisfying [test] was asked and answered with a value. *)
Definition succeeds (test : request -> bool) (tr : list event) : Prop :=
  exists r v, test r = true /\ In (Asked r (Returned v)) tr.

(** The requests that create or use graphical state. *)
Definition is_graphics (r : request) : bool :=
  is_figure r || is_surface r || is_render r || is_display r.

(** The cube objects constructed: the successful constructor calls. *)
Definition cubes_constructed (tr : list event) : list (request * outcome) :=
  List.filter (fun a => is_cube_ctor (fst a) && returned (snd a)) (asked tr).

(** ** The counting claims, as the specification words them *)

(** Exactly one render call is made, on the cube the script constructed,
    with three arguments: the record key, the surface the script created,
    and the opacity. *)
Definition one_render_call (tr : list event) : Prop :=
  exists cls fig npv ax,
    In (Asked (new_cube cls) (Returned npv)) tr /\
    In (Asked (new_surface fig) (Returned ax)) tr /\
    List.filter is_render (requests tr) = [render npv ax].

(** The five steps occur, in order, and the display call is the last thing
    the script does. *)
Definition five_steps_in_order (tr : list event) : Prop :=
  steps tr = five_steps /\
  exists plt o, last tr = Some (Asked (display plt) o).

(** Exactly one cube is constructed, from the file path, and exactly one
    method call is made on it, the render call. *)
Definition one_cube_used_once (tr : list event) : Prop :=
  exists cls npv ax,
    cubes_constructed tr = [(new_cube cls, Returned npv)] /\
    List.filter is_cube_ctor (requests tr) = [new_cube cls] /\
    List.filter (calls_on "npv") (requests tr) = [render npv ax].

(** ** More ways to read a trace *)

Definition is_import (r : request) : bool :=
  match r with
  | ImportFrom _ _ | ImportModule _ => true
  | Invoke _ _ _ => false
  end.

(** The name bindings of a trace, oldest first. *)
Definition bindings (tr : list event) : list (string * value) :=
  omap (fun ev => match ev with
                  | Bound x v => Some (x, v)
                  | Asked _ _ => None
                  end) tr.

(** The globals a trace leaves behind: a later binding of a name replaces
    an earlier one. *)
Definition globals_of (tr : list event) : gmap string value :=
  foldl (fun g b => <[fst b := snd b]> g) ∅ (bindings tr).

(** Where the object a call goes through comes from: the class called is
    the one imported from [npvlib], [plt] is the imported module, [fig] is
    what [plt.figure()] returned and [npv] what the constructor returned. *)
Definition comes_from (c : callee) (tr : list event) : Prop :=
  match c with
  | ByName x f =>
      x = "NpvCube" /\ In (Asked import_npvlib (Returned f)) tr
  | ByAttr x obj _ =>
      (x = "plt" /\ In (Asked import_pyplot (Returned obj)) tr) \/
      (x = "fig" /\ exists plt, In (Asked (new_figure plt) (Returned obj)) tr) \/
      (x = "npv" /\ exists cls, In (Asked (new_cube cls) (Returned obj)) tr)
  end.

(** ** What the script itself does to the outside

    The script has no output statement of its own: no [open], no [print],
    no [savefig].  All it does to the outside is the eight library requests
    written in the source. *)
Definition in_source (q : request) : Prop :=
  q = import_npvlib \/ q = import_pyplot \/ q = import_axes3d \/
  (exists cls, q = new_cube cls) \/
  (exists plt, q = new_figure plt) \/
  (exists fig, q = new_surface fig) \/
  (exists npv ax, q = render npv ax) \/
  (exists plt, q = display plt).

(** The sample machine with one more library call, which does write a
    file: [x.savefig(path)] creates [path] on the disk. *)
Definition workstation (r : request) (m : machine) : outcome * machine :=
  match r with
  | Invoke (ByAttr _ _ attr) (VStr path :: _) _ =>
      if String.eqb attr "savefig"
      then (Returned VNone,
            {| allocated := allocated m; disk := <[path := []]> (disk m);
               loaded := loaded m; has_display := has_display m;
               windows := windows m |})
      else desktop r m
  | _ => desktop r m
  end.

(** * Properties *)

(** ** Symbolic execution *)

Section Symbolic.

Context {World : Type}.
Variable lib : request -> World -> outcome * World.

Ltac read_global :=
  repeat (rewrite lookup_insert_ne by done);
  rewrite lookup_insert_eq;
  cbn [globals sys_argv world trace].

Tactic Notation "ask_lib" "or" tactic3(stop) :=
  match goal with
  | |- context [lib ?r ?w] =>
      destruct (lib r w) as [[? | ?] ?] eqn:?;
      [ cbn [globals sys_argv world trace]
      | solve [stop; eassumption] ]
  end.

(** Every run of the script is one of the nine executions. *)
Lemma run_script_execution argv w :
  execution lib argv w (run_script lib argv w).
Proof.
  unfold run_script, script, boot.
  unfold line4, line5, line6, line9, line10, line11, line13, line14, line15, line16.
  unfold bind, call_name, call_attr, ask, store_name, load_name, ret.
  cbn [globals sys_argv world trace].
  ask_lib or (eapply stop_line4).
  ask_lib or (eapply stop_line5).
  ask_lib or (eapply stop_line6).
  do 2 read_global.
  ask_lib or (eapply stop_line10).
  read_global.
  ask_lib or (eapply stop_line13).
  read_global.
  ask_lib or (eapply stop_line14).
  do 3 read_global.
  ask_lib or (eapply stop_line15).
  read_global.
  ask_lib or (eapply stop_line16).
  eapply completed; eassumption.
Qed.

End Symbolic.

(** The three smoke tests of the specification, on the sample machine. *)
Example run_on_valid_box :
  exit (run_script desktop ["npvtest.py"] valid_box) = ExitSuccess /\
  asked (trace (final (run_script desktop ["npvtest.py"] valid_box))) =
    [(import_npvlib, Returned (VObj 0));
     (import_pyplot, Returned (VObj 1));
     (import_axes3d, Returned (VObj 2));
     (new_cube (VObj 0), Returned (VObj 3));
     (new_figure (VObj 1), Returned (VObj 4));
     (new_surface (VObj 4), Returned (VObj 5));
     (render (VObj 3) (VObj 5), Returned VNone);
     (display (VObj 1), Returned VNone)] /\
  windows (world (final (run_script desktop ["npvtest.py"] valid_box))) = 1.
Proof. repeat split; vm_compute; reflexivity. Qed.

Example run_without_file :
  exit (run_script desktop ["npvtest.py"] no_file)
    = Uncaught (Exn "FileNotFoundError" "cube_full.csv") /\
  windows (world (final (run_script desktop ["npvtest.py"] no_file))) = 0.
Proof. split; vm_compute; reflexivity. Qed.

Example run_with_other_trades :
  exit (run_script desktop ["npvtest.py"] other_trades)
    = Uncaught (Exn "KeyError" "833397AI") /\
  windows (world (final (run_script desktop ["npvtest.py"] other_trades))) = 0.
Proof. split; vm_compute; reflexivity. Qed.

(** ** Exceptions are never caught *)

Section NoHandler.

Context {World : Type}.
Variable lib : request -> World -> outcome * World.

Lemma quiet_snoc (t : list event) (ev : event) :
  quiet t ->
  (forall r e, ev <> Asked r (Raised e)) ->
  quiet (t ++ [ev]).
Proof.
  intros Ht Hev r e Hin.
  apply in_app_or in Hin. destruct Hin as [Hin | [Heq | []]].
  - exact (Ht r e Hin).
  - exact (Hev r e Heq).
Qed.

Lemma propagates_ret {A : Type} (a : A) : propagates (@ret World A a).
Proof. intros s Hs. exact Hs. Qed.

Lemma propagates_bind {A B : Type} (m : py A) (k : A -> @py World B) :
  propagates m -> (forall a, propagates (k a)) -> propagates (bind m k).
Proof.
  intros Hm Hk s Hs. unfold bind.
  specialize (Hm s Hs).
  destruct (m s) as [[a | e] s'].
  - exact (Hk a s' Hm).
  - exact Hm.
Qed.

Lemma propagates_load_name (x : string) : propagates (@load_name World x).
Proof.
  intros s Hs. unfold load_name.
  destruct (globals s !! x); [exact Hs | left; exact Hs].
Qed.

Lemma propagates_store_name (x : string) (v : value) :
  propagates (@store_name World x v).
Proof.
  intros s Hs. unfold store_name. cbn [trace].
  apply quiet_snoc; [exact Hs | discriminate].
Qed.

Lemma propagates_ask (r : request) : propagates (ask lib r).
Proof.
  intros s Hs. unfold ask.
  destruct (lib r (world s)) as [[v | e] w']; cbn [trace].
  - apply quiet_snoc; [exact Hs | discriminate].
  - right. exists (trace s), r. split; [reflexivity | exact Hs].
Qed.

Lemma propagates_script : propagates (script lib).
Proof.
  unfold script, line4, line5, line6, line9, line10, line11,
    line13, line14, line15, line16, call_name, call_attr.
  repeat first
    [ apply propagates_bind; [ | intros ? ]
    | apply propagates_ask
    | apply propagates_load_name
    | apply propagates_store_name
    | apply propagates_ret ].
Qed.

End NoHandler.

(** C3: the script installs no exception handler.  Whenever a request of
    the script (the cube constructor, the render call, the display call, or
    any other) is answered by an exception [e], the process ends with [e]
    uncaught, and the raising request is the last thing the script did. *)
Theorem C3_exception_reaches_process_boundary
    {World : Type} (lib : request -> World -> outcome * World)
    (argv : list string) (w : World) (r : request) (e : exn) :
  In (Asked r (Raised e)) (trace (final (run_script lib argv w))) ->
  exit (run_script lib argv w) = Uncaught e /\
  last (trace (final (run_script lib argv w))) = Some (Asked r (Raised e)).
Proof.
  unfold run_script.
  pose proof (propagates_script lib (boot argv w)) as H.
  destruct (script lib (boot argv w)) as [[[] | e'] s']; cbn [exit final];
    intros Hin.
  - exfalso. apply (H ltac:(intros ? ? [])) in Hin. exact Hin.
  - destruct (H ltac:(intros ? ? [])) as [Hq | (t & r' & Ht & Hq)].
    + exfalso. exact (Hq r e Hin).
    + rewrite Ht in Hin |- *.
      apply in_app_or in Hin. destruct Hin as [Hin | [Heq | []]].
      * exfalso. exact (Hq r e Hin).
      * inversion Heq; subst. split; [reflexivity | apply last_snoc].
Qed.

(** X2: conversely every failure of the script is a library's.  The script
    never raises on its own, in particular no [NameError]: every name it
    reads has been bound by an earlier line.  So an uncaught exception is
    always the one raised by the last request. *)
Lemma uncaught_comes_from_library
    {World : Type} (lib : request -> World -> outcome * World)
    (argv : list string) (w : World) (e : exn) :
  exit (run_script lib argv w) = Uncaught e ->
  exists r, last (trace (final (run_script lib argv w))) = Some (Asked r (Raised e)).
Proof.
  pose proof (run_script_execution lib argv w) as Hp.
  destruct Hp; unfold died; cbn [exit final trace]; intros He;
    inversion He; subst; eexists; apply last_snoc.
Qed.

(** The render call raises on a cube without the record key: the process
    ends with that [KeyError]. *)
Lemma C3_witness :
  exit (run_script desktop ["npvtest.py"] other_trades)
    = Uncaught (Exn "KeyError" "833397AI") /\
  last (trace (final (run_script desktop ["npvtest.py"] other_trades)))
    = Some (Asked (render (VObj 3) (VObj 5)) (Raised (Exn "KeyError" "833397AI"))).
Proof.
  apply (C3_exception_reaches_process_boundary desktop ["npvtest.py"] other_trades
           (render (VObj 3) (VObj 5)) (Exn "KeyError" "833397AI")).
  vm_compute. repeat (first [left; reflexivity | right]).
Defined.

(** ** The command line is never read *)

Section ArgvBlind.

Context {World : Type}.
Variable lib : request -> World -> outcome * World.

Lemma argv_blind_ret {A : Type} (a : A) : argv_blind (@ret World A a).
Proof. intros s1 s2 Hs. split; [reflexivity | exact Hs]. Qed.

Lemma argv_blind_bind {A B : Type} (m : py A) (k : A -> @py World B) :
  argv_blind m -> (forall a, argv_blind (k a)) -> argv_blind (bind m k).
Proof.
  intros Hm Hk s1 s2 Hs. unfold bind.
  destruct (Hm s1 s2 Hs) as [Hr Hs'].
  destruct (m s1) as [r1 s1'], (m s2) as [r2 s2']; cbn [fst snd] in *.
  subst r2. destruct r1 as [a | e].
  - exact (Hk a s1' s2' Hs').
  - split; [reflexivity | exact Hs'].
Qed.

Lemma argv_blind_load_name (x : string) : argv_blind (@load_name World x).
Proof.
  intros s1 s2 Hs. unfold load_name.
  destruct Hs as (Hg & Hw & Ht). rewrite Hg.
  destruct (globals s2 !! x); (split; [reflexivity | repeat split; assumption]).
Qed.

Lemma argv_blind_store_name (x : string) (v : value) :
  argv_blind (@store_name World x v).
Proof.
  intros s1 s2 (Hg & Hw & Ht). unfold store_name, agree; cbn.
  rewrite Hg, Hw, Ht. repeat split.
Qed.

Lemma argv_blind_ask (r : request) : argv_blind (ask lib r).
Proof.
  intros s1 s2 (Hg & Hw & Ht). unfold ask, agree.
  rewrite Hg, Hw, Ht.
  destruct (lib r (world s2)) as [[v | e] w']; cbn; repeat split.
Qed.

Lemma argv_blind_script : argv_blind (script lib).
Proof.
  unfold script, line4, line5, line6, line9, line10, line11,
    line13, line14, line15, line16, call_name, call_attr.
  repeat first
    [ apply argv_blind_bind; [ | intros ? ]
    | apply argv_blind_ask
    | apply argv_blind_load_name
    | apply argv_blind_store_name
    | apply argv_blind_ret ].
Qed.

End ArgvBlind.

(** C7: the script reads no command-line arguments.  Two invocations that
    differ only in their argument vectors (same libraries, same world) ask
    the same requests with the same argument values, get the same answers,
    bind the same globals and end in the same way. *)
Theorem C7_argv_is_not_read
    {World : Type} (lib : request -> World -> outcome * World)
    (argv1 argv2 : list string) (w : World) :
  requests (trace (final (run_script lib argv1 w)))
    = requests (trace (final (run_script lib argv2 w))) /\
  trace (final (run_script lib argv1 w)) = trace (final (run_script lib argv2 w)) /\
  exit (run_script lib argv1 w) = exit (run_script lib argv2 w) /\
  world (final (run_script lib argv1 w)) = world (final (run_script lib argv2 w)).
Proof.
  unfold run_script.
  destruct (argv_blind_script lib (boot argv1 w) (boot argv2 w)) as [Hr Hs].
  { repeat split. }
  destruct (script lib (boot argv1 w)) as [r1 s1].
  destruct (script lib (boot argv2 w)) as [r2 s2].
  cbn [fst snd exit final] in *. subst r2.
  destruct Hs as (Hg & Hw & Ht). rewrite Ht, Hw. repeat split.
Qed.

(** ** Properties read off the nine executions *)

(** Case analysis on the execution of [run_script lib argv w]. *)
Ltac by_execution lib argv w :=
  let p := fresh "p" in
  let Hp := fresh "Hp" in
  pose proof (run_script_execution lib argv w) as Hp;
  remember (run_script lib argv w) as p in *;
  match goal with H : p = run_script lib argv w |- _ => clear H end;
  destruct Hp; unfold died in *; cbn [exit final trace world globals] in *.

(** Going through the events of an explicit trace. *)
Ltac each_event Hin :=
  cbn in Hin;
  repeat (destruct Hin as [Hin | Hin]; [ inversion Hin; subst | ]);
  try contradiction.

(** An event that is in an explicit trace. *)
Ltac found := cbn; repeat (first [left; reflexivity | right]).

(** No request satisfying the test was answered with a value. *)
Ltac no_success H :=
  let Ht := fresh "Ht" in
  let Hin := fresh "Hin" in
  destruct H as (? & ? & Ht & Hin);
  each_event Hin; vm_compute in Ht; discriminate Ht.

(** C1: in every execution in which the cube constructor, the render call
    and the display call all succeed, the script ends without an error,
    having loaded the cube from ['cube_full.csv'], rendered the density plot
    of ['833397AI'] on the surface and displayed the figure; these are,
    with the three imports and the two calls creating the surface, all the
    requests it made, and all of them succeeded. *)
Theorem C1_valid_run_displays_figure
    {World : Type} (lib : request -> World -> outcome * World)
    (argv : list string) (w : World) :
  succeeds is_cube_ctor (trace (final (run_script lib argv w))) ->
  succeeds is_render (trace (final (run_script lib argv w))) ->
  succeeds is_display (trace (final (run_script lib argv w))) ->
  exit (run_script lib argv w) = ExitSuccess /\
  exists cls plt a3d npv fig ax r15 r16,
    asked (trace (final (run_script lib argv w))) =
      [(import_npvlib, Returned cls);
       (import_pyplot, Returned plt);
       (import_axes3d, Returned a3d);
       (new_cube cls, Returned npv);
       (new_figure plt, Returned fig);
       (new_surface fig, Returned ax);
       (render npv ax, Returned r15);
       (display plt, Returned r16)].
Proof.
  intros Hcube Hrender Hdisplay.
  by_execution lib argv w; try (no_success Hdisplay).
  split; [reflexivity | ].
  exists cls, plt, a3d, npv, fig, ax, r15, r16. reflexivity.
Qed.

(** On the machine with a valid [cube_full.csv] the three calls succeed,
    and the script exits normally. *)
Lemma C1_witness :
  exit (run_script desktop ["npvtest.py"] valid_box) = ExitSuccess /\
  exists cls plt a3d npv fig ax r15 r16,
    asked (trace (final (run_script desktop ["npvtest.py"] valid_box))) =
      [(import_npvlib, Returned cls);
       (import_pyplot, Returned plt);
       (import_axes3d, Returned a3d);
       (new_cube cls, Returned npv);
       (new_figure plt, Returned fig);
       (new_surface fig, Returned ax);
       (render npv ax, Returned r15);
       (display plt, Returned r16)].
Proof.
  apply (C1_valid_run_displays_figure desktop ["npvtest.py"] valid_box).
  - exists (new_cube (VObj 0)), (VObj 3). split; [reflexivity | ].
    vm_compute. repeat (first [left; reflexivity | right]).
  - exists (render (VObj 3) (VObj 5)), VNone. split; [reflexivity | ].
    vm_compute. repeat (first [left; reflexivity | right]).
  - exists (display (VObj 1)), VNone. split; [reflexivity | ].
    vm_compute. repeat (first [left; reflexivity | right]).
Defined.

(** C2, as corrected: in every execution in which the plot surface has
    been created, the script makes exactly one render call, on the cube
    object, with exactly three arguments in this order: the record key, the
    plot surface and the opacity [0.7]; in every other execution it makes
    no render call at all. *)
Theorem C2_one_render_call_once_surface_exists
    {World : Type} (lib : request -> World -> outcome * World)
    (argv : list string) (w : World) :
  (succeeds is_surface (trace (final (run_script lib argv w))) /\
   one_render_call (trace (final (run_script lib argv w)))) \/
  (~ succeeds is_surface (trace (final (run_script lib argv w))) /\
   List.filter is_render (requests (trace (final (run_script lib argv w)))) = []).
Proof.
  by_execution lib argv w;
    try (right; split; [ intros Hs; no_success Hs | reflexivity ]);
    left; (split;
      [ exists (new_surface fig), ax; split; [ reflexivity | ];
        cbn; repeat (first [left; reflexivity | right])
      | exists cls, fig, npv, ax;
        split; [ cbn; repeat (first [left; reflexivity | right]) | ];
        split; [ cbn; repeat (first [left; reflexivity | right]) | reflexivity ] ]).
Qed.

(** C2 as stated fails: with [cube_full.csv] missing the constructor
    raises and no render call is made; without a display the cube is
    constructed, [plt.figure()] raises, and again no render call is made. *)
Lemma C2_counterexample :
  (List.filter is_render
     (requests (trace (final (run_script desktop ["npvtest.py"] no_file)))) = [] /\
   ~ one_render_call (trace (final (run_script desktop ["npvtest.py"] no_file)))) /\
  (cubes_constructed (trace (final (run_script desktop ["npvtest.py"] headless)))
     = [(new_cube (VObj 0), Returned (VObj 3))] /\
   List.filter is_render
     (requests (trace (final (run_script desktop ["npvtest.py"] headless)))) = [] /\
   ~ one_render_call (trace (final (run_script desktop ["npvtest.py"] headless)))).
Proof.
  repeat split; try (vm_compute; reflexivity);
    intros (cls & fig & npv & ax & _ & _ & H); vm_compute in H; discriminate H.
Qed.

(** C4, as corrected: in every execution the steps that occur are an
    initial segment of the fixed order (cube loaded, record key selected,
    surface created, render call made, display call made); all five occur
    exactly when the render call returns; and the display call, when it is
    made, is the last operation of the script. *)
Theorem C4_steps_follow_the_fixed_order
    {World : Type} (lib : request -> World -> outcome * World)
    (argv : list string) (w : World) :
  (exists rest,
     five_steps = steps (trace (final (run_script lib argv w))) ++ rest) /\
  (succeeds is_render (trace (final (run_script lib argv w))) <->
   five_steps_in_order (trace (final (run_script lib argv w)))) /\
  (forall r o,
     In (Asked r o) (trace (final (run_script lib argv w))) ->
     is_display r = true ->
     last (trace (final (run_script lib argv w))) = Some (Asked r o)).
Proof.
  by_execution lib argv w; (split; [ | split ]).
  all: try (eexists; cbn; reflexivity).
  all: try (intros r o Hin Hr; each_event Hin;
            first [ discriminate Hr | reflexivity ]).
  all: split.
  all: try (intros Hs; no_success Hs).
  all: try (intros [Hs _]; cbn in Hs; discriminate Hs).
  - intros _. split; [ reflexivity | exists plt, (Raised e); reflexivity ].
  - intros _. exists (render npv ax), r15. split; [ reflexivity | found ].
  - intros _. split; [ reflexivity | exists plt, (Returned r16); reflexivity ].
  - intros _. exists (render npv ax), r15. split; [ reflexivity | found ].
Qed.

(** C4 as stated fails: with [cube_full.csv] missing, none of the five
    steps occurs (the cube is not loaded and the script stops there); with
    the record key absent, the render call is made and no display call
    follows it. *)
Lemma C4_counterexample :
  (steps (trace (final (run_script desktop ["npvtest.py"] no_file))) = [] /\
   ~ five_steps_in_order (trace (final (run_script desktop ["npvtest.py"] no_file)))) /\
  (steps (trace (final (run_script desktop ["npvtest.py"] other_trades)))
     = [LoadCube; SelectKey; CreateSurface; RenderCall] /\
   ~ five_steps_in_order
       (trace (final (run_script desktop ["npvtest.py"] other_trades)))).
Proof.
  repeat split; try (vm_compute; reflexivity);
    intros [H _]; vm_compute in H; discriminate H.
Qed.

(** C5, as corrected: in every execution the cube constructor is called at
    most once; in every execution in which the plot surface has been
    created, exactly one cube object has been constructed, by one load from
    the file path, and exactly one method call is made on it, the render
    call; in every other execution no method call is made on a cube.  The
    cube is never reloaded or used a second time. *)
Theorem C5_cube_loaded_once_used_once
    {World : Type} (lib : request -> World -> outcome * World)
    (argv : list string) (w : World) :
  length (List.filter is_cube_ctor
            (requests (trace (final (run_script lib argv w))))) <= 1 /\
  length (cubes_constructed (trace (final (run_script lib argv w)))) <= 1 /\
  ((succeeds is_surface (trace (final (run_script lib argv w))) /\
    one_cube_used_once (trace (final (run_script lib argv w)))) \/
   (~ succeeds is_surface (trace (final (run_script lib argv w))) /\
    List.filter (calls_on "npv")
      (requests (trace (final (run_script lib argv w)))) = [])).
Proof.
  by_execution lib argv w; (split; [ cbn; lia | split; [ cbn; lia | ] ]).
  all: try (right; split; [ intros Hs; no_success Hs | reflexivity ]).
  all: left; (split;
         [ exists (new_surface fig), ax; split; [ reflexivity | found ]
         | exists cls, npv, ax; repeat split ]).
Qed.

(** C5 as stated fails: with [cube_full.csv] missing no cube object is
    constructed; without a display one cube is constructed and no method is
    ever called on it. *)
Lemma C5_counterexample :
  (cubes_constructed (trace (final (run_script desktop ["npvtest.py"] no_file))) = [] /\
   ~ one_cube_used_once (trace (final (run_script desktop ["npvtest.py"] no_file)))) /\
  (cubes_constructed (trace (final (run_script desktop ["npvtest.py"] headless)))
     = [(new_cube (VObj 0), Returned (VObj 3))] /\
   List.filter (calls_on "npv")
     (requests (trace (final (run_script desktop ["npvtest.py"] headless)))) = [] /\
   ~ one_cube_used_once (trace (final (run_script desktop ["npvtest.py"] headless)))).
Proof.
  repeat split; try (vm_compute; reflexivity).
  - intros (cls & npv & ax & H & _); vm_compute in H; discriminate H.
  - intros (cls & npv & ax & _ & _ & H); vm_compute in H; discriminate H.
Qed.

(** C6: the plot surface is created exactly once, by
    [fig.add_subplot(111, projection='3d')] on the figure [plt.figure()]
    returned, and the object that call returned is, unchanged, the second
    argument of the render call: in every execution in which a surface [ax]
    is created, there is one creation request, it has the 3-D projection,
    and the one render call receives [ax] itself. *)
Theorem C6_surface_created_once_and_passed_on
    {World : Type} (lib : request -> World -> outcome * World)
    (argv : list string) (w : World) (r : request) (ax : value) :
  is_surface r = true ->
  In (Asked r (Returned ax)) (trace (final (run_script lib argv w))) ->
  exists plt fig npv,
    In (Asked (Invoke (ByAttr "plt" plt "figure") [] []) (Returned fig))
       (trace (final (run_script lib argv w))) /\
    r = Invoke (ByAttr "fig" fig "add_subplot")
               [VInt 111] [("projection", VStr "3d")] /\
    List.filter is_surface (requests (trace (final (run_script lib argv w)))) = [r] /\
    List.filter is_render (requests (trace (final (run_script lib argv w))))
      = [Invoke (ByAttr "npv" npv "plot_density")
                [VStr "833397AI"; ax; VFloat opacity] []].
Proof.
  intros Hr Hin.
  by_execution lib argv w; each_event Hin; try discriminate Hr.
  all: exists plt, fig, npv; split; [ found | repeat split ].
Qed.

(** On the machine with a valid [cube_full.csv], the surface is the sixth
    object handed out, and the render call receives it. *)
Lemma C6_witness :
  exists plt fig npv,
    In (Asked (Invoke (ByAttr "plt" plt "figure") [] []) (Returned fig))
       (trace (final (run_script desktop ["npvtest.py"] valid_box))) /\
    new_surface (VObj 4)
      = Invoke (ByAttr "fig" fig "add_subplot")
               [VInt 111] [("projection", VStr "3d")] /\
    List.filter is_surface
      (requests (trace (final (run_script desktop ["npvtest.py"] valid_box))))
      = [new_surface (VObj 4)] /\
    List.filter is_render
      (requests (trace (final (run_script desktop ["npvtest.py"] valid_box))))
      = [Invoke (ByAttr "npv" npv "plot_density")
                [VStr "833397AI"; VObj 5; VFloat opacity] []].
Proof.
  apply (C6_surface_created_once_and_passed_on desktop ["npvtest.py"] valid_box
           (new_surface (VObj 4)) (VObj 5)).
  - reflexivity.
  - vm_compute. repeat (first [left; reflexivity | right]).
Defined.

(** C9: the file path and the record key are literals of the script.
    Whatever the libraries, the world and the command line, a call of the
    cube constructor has the one positional argument ['cube_full.csv'], and
    a render call has the record key ['833397AI'] as its first argument. *)
Theorem C9_path_and_key_are_literals
    {World : Type} (lib : request -> World -> outcome * World)
    (argv : list string) (w : World) (r : request) :
  In r (requests (trace (final (run_script lib argv w)))) ->
  (is_cube_ctor r = true ->
   exists cls, r = Invoke (ByName "NpvCube" cls) [VStr "cube_full.csv"] []) /\
  (is_render r = true ->
   exists npv ax,
     r = Invoke (ByAttr "npv" npv "plot_density")
                [VStr "833397AI"; ax; VFloat opacity] []).
Proof.
  intros Hin.
  by_execution lib argv w; each_event Hin.
  all: split; intros Hr; try discriminate Hr.
  all: first [ exists cls; reflexivity | exists npv, ax; reflexivity ].
Qed.

(** The constructor call of the run on the valid machine. *)
Lemma C9_witness :
  (is_cube_ctor (new_cube (VObj 0)) = true ->
   exists cls,
     new_cube (VObj 0) = Invoke (ByName "NpvCube" cls) [VStr "cube_full.csv"] []) /\
  (is_render (new_cube (VObj 0)) = true ->
   exists npv ax,
     new_cube (VObj 0)
       = Invoke (ByAttr "npv" npv "plot_density")
                [VStr "833397AI"; ax; VFloat opacity] []).
Proof.
  apply (C9_path_and_key_are_literals desktop ["npvtest.py"] valid_box
           (new_cube (VObj 0))).
  vm_compute. repeat (first [left; reflexivity | right]).
Defined.

(** C10: if the cube constructor raises, the script ends with that
    exception uncaught, having asked for no figure, no surface, no render
    and no display; the names [fig] and [ax] were never bound; and whatever
    part of the world only those graphical requests can change is as it
    was before the script started. *)
Theorem C10_no_graphics_when_load_fails
    {World : Type} (lib : request -> World -> outcome * World)
    (argv : list string) (w : World) (r : request) (e : exn) :
  is_cube_ctor r = true ->
  In (Asked r (Raised e)) (trace (final (run_script lib argv w))) ->
  exit (run_script lib argv w) = Uncaught e /\
  List.filter is_graphics (requests (trace (final (run_script lib argv w)))) = [] /\
  globals (final (run_script lib argv w)) !! "fig" = None /\
  globals (final (run_script lib argv w)) !! "ax" = None /\
  (forall (G : Type) (gfx : World -> G),
     (forall q w', is_graphics q = false -> gfx (snd (lib q w')) = gfx w') ->
     gfx (world (final (run_script lib argv w))) = gfx w).
Proof.
  intros Hr Hin.
  by_execution lib argv w; each_event Hin; try discriminate Hr.
  repeat split.
  intros G gfx Hframe.
  repeat match goal with
         | E : lib ?q ?w' = (_, _) |- _ =>
             let F := fresh "F" in
             assert (F := Hframe q w' eq_refl); rewrite E in F; cbn [snd] in F;
             clear E
         end.
  congruence.
Qed.

(** With [cube_full.csv] missing the constructor raises
    [FileNotFoundError], and nothing graphical has happened. *)
Lemma C10_witness :
  exit (run_script desktop ["npvtest.py"] no_file)
    = Uncaught (Exn "FileNotFoundError" "cube_full.csv") /\
  List.filter is_graphics
    (requests (trace (final (run_script desktop ["npvtest.py"] no_file)))) = [] /\
  globals (final (run_script desktop ["npvtest.py"] no_file)) !! "fig" = None /\
  globals (final (run_script desktop ["npvtest.py"] no_file)) !! "ax" = None /\
  (forall (G : Type) (gfx : machine -> G),
     (forall q w', is_graphics q = false -> gfx (snd (desktop q w')) = gfx w') ->
     gfx (world (final (run_script desktop ["npvtest.py"] no_file))) = gfx no_file).
Proof.
  apply (C10_no_graphics_when_load_fails desktop ["npvtest.py"] no_file
           (new_cube (VObj 0)) (Exn "FileNotFoundError" "cube_full.csv")).
  - reflexivity.
  - vm_compute. repeat (first [left; reflexivity | right]).
Defined.

(** ** The script writes nothing itself *)

(** The sample libraries never write to the disk, and only the display
    call opens a window. *)
Lemma desktop_keeps_disk (q : request) (m : machine) :
  disk (snd (desktop q m)) = disk m.
Proof.
  unfold desktop, alloc.
  repeat (case_match; cbn [snd disk]); reflexivity.
Qed.

Lemma desktop_windows (q : request) (m : machine) :
  is_display q = false -> windows (snd (desktop q m)) = windows m.
Proof.
  intros Hq. unfold desktop, alloc. rewrite Hq.
  repeat (case_match; cbn [snd windows]); reflexivity.
Qed.

(** On the workstation [savefig] does write, so a script that called it
    would leave a new file behind. *)
Example savefig_writes :
  disk (snd (workstation
               (Invoke (ByAttr "fig" (VObj 4) "savefig") [VStr "out.png"] [])
               valid_box)) !! "out.png" = Some [].
Proof. vm_compute. reflexivity. Qed.

(** A request is one of the eight written in the source. *)
Ltac source_request :=
  unfold in_source;
  repeat (first [ left;
                  solve [ reflexivity
                        | eexists; reflexivity
                        | do 2 eexists; reflexivity ]
                | right ]);
  solve [ eexists; reflexivity ].

(** None of the requests of the source writes to the workstation's disk,
    and only the display call opens a window. *)
Lemma workstation_keeps_disk (q : request) (m : machine) :
  in_source q -> disk (snd (workstation q m)) = disk m.
Proof.
  intros [-> | [-> | [-> | [[? ->] | [[? ->] | [[? ->] | [(? & ? & ->) | [? ->]]]]]]]];
    apply desktop_keeps_disk.
Qed.

Lemma workstation_windows (q : request) (m : machine) :
  in_source q -> is_display q = false -> windows (snd (workstation q m)) = windows m.
Proof.
  intros [-> | [-> | [-> | [[? ->] | [[? ->] | [[? ->] | [(? & ? & ->) | [? ->]]]]]]]];
    apply desktop_windows.
Qed.

(** C8: the script writes no file of its own and its only output is the
    window of the display call.  Every request the script makes is one of
    the eight written in the source (the three imports, the constructor,
    [figure], [add_subplot], [plot_density], [show]): it never opens, writes
    or saves a file.  So whatever else the libraries can do, if these eight
    leave the files alone the files at the end are the files at the start;
    and a part of the world that, among the eight, only the display call can
    change is either unchanged at the end, or it is what the display call,
    the last request of the script, made of it. *)
Theorem C8_no_output_but_the_display_call
    {World F S : Type} (lib : request -> World -> outcome * World)
    (files : World -> F) (screen : World -> S)
    (argv : list string) (w : World) :
  (forall q w', in_source q -> files (snd (lib q w')) = files w') ->
  (forall q w', in_source q -> is_display q = false ->
                screen (snd (lib q w')) = screen w') ->
  Forall in_source (requests (trace (final (run_script lib argv w)))) /\
  files (world (final (run_script lib argv w))) = files w /\
  (screen (world (final (run_script lib argv w))) = screen w \/
   exists plt o w',
     last (trace (final (run_script lib argv w))) = Some (Asked (display plt) o) /\
     screen w' = screen w /\
     world (final (run_script lib argv w)) = snd (lib (display plt) w')).
Proof.
  intros Hfiles Hscreen.
  by_execution lib argv w;
    (split;
     [ cbn; repeat (constructor; [ source_request | ]); constructor | ]);
    repeat match goal with
           | E : lib ?q ?w' = (_, _) |- _ =>
               let K := fresh "K" in
               let L := fresh "L" in
               assert (K := Hfiles q w' ltac:(source_request));
               rewrite E in K; cbn [snd] in K;
               first [ assert (L := Hscreen q w' ltac:(source_request) eq_refl);
                       rewrite E in L; cbn [snd] in L
                     | assert (L := f_equal snd E); cbn [snd] in L ];
               clear E
           end;
    (split; [ congruence | ]);
    try (left; congruence).
  - right. exists plt, (Raised e), w7. repeat split; congruence.
  - right. exists plt, (Returned r16), w7. repeat split; congruence.
Qed.

(** On the workstation, where [savefig] would write, the run on the valid
    machine makes only requests of the source, leaves the disk as it was,
    and the one window is the display call's. *)
Lemma C8_witness :
  Forall in_source
    (requests (trace (final (run_script workstation ["npvtest.py"] valid_box)))) /\
  disk (world (final (run_script workstation ["npvtest.py"] valid_box)))
    = disk valid_box /\
  (windows (world (final (run_script workstation ["npvtest.py"] valid_box)))
     = windows valid_box \/
   exists plt o w',
     last (trace (final (run_script workstation ["npvtest.py"] valid_box)))
       = Some (Asked (display plt) o) /\
     windows w' = windows valid_box /\
     world (final (run_script workstation ["npvtest.py"] valid_box))
       = snd (workstation (display plt) w')).
Proof.
  apply (C8_no_output_but_the_display_call workstation disk windows
           ["npvtest.py"] valid_box).
  - exact workstation_keeps_disk.
  - exact workstation_windows.
Defined.

(** ** Further properties of the script *)

Ltac unfold_requests :=
  unfold import_npvlib, import_pyplot, import_axes3d, new_cube, new_figure,
    new_surface, render, display in *.

(** X1: the imports come first.  If the script makes any call at all, the
    three imports of lines 4 to 6 have been done before it, in source
    order, each has returned and been bound to its name, and no import
    happens after them. *)
Theorem X1_calls_follow_the_three_imports
    {World : Type} (lib : request -> World -> outcome * World)
    (argv : list string) (w : World)
    (c : callee) (args : list value) (kw : list (string * value)) (o : outcome) :
  In (Asked (Invoke c args kw) o) (trace (final (run_script lib argv w))) ->
  exists cls plt a3d rest,
    trace (final (run_script lib argv w)) =
      [Asked (ImportFrom "npvlib" "NpvCube") (Returned cls);
       Bound "NpvCube" cls;
       Asked (ImportModule "matplotlib.pyplot") (Returned plt);
       Bound "plt" plt;
       Asked (ImportFrom "mpl_toolkits.mplot3d" "Axes3D") (Returned a3d);
       Bound "Axes3D" a3d] ++ rest /\
    List.filter is_import (requests rest) = [].
Proof.
  intros Hin.
  by_execution lib argv w; each_event Hin.
  all: exists cls, plt, a3d; eexists; split; [ reflexivity | reflexivity ].
Qed.

(** The constructor call of the run on the valid machine. *)
Lemma X1_witness :
  exists cls plt a3d rest,
    trace (final (run_script desktop ["npvtest.py"] valid_box)) =
      [Asked (ImportFrom "npvlib" "NpvCube") (Returned cls);
       Bound "NpvCube" cls;
       Asked (ImportModule "matplotlib.pyplot") (Returned plt);
       Bound "plt" plt;
       Asked (ImportFrom "mpl_toolkits.mplot3d" "Axes3D") (Returned a3d);
       Bound "Axes3D" a3d] ++ rest /\
    List.filter is_import (requests rest) = [].
Proof.
  apply (X1_calls_follow_the_three_imports desktop ["npvtest.py"] valid_box
           (ByName "NpvCube" (VObj 0)) [VStr "cube_full.csv"] [] (Returned (VObj 3))).
  vm_compute. repeat (first [left; reflexivity | right]).
Defined.

(** On the machine without [cube_full.csv] the uncaught exception is the
    constructor's. *)
Lemma X2_witness :
  exists r,
    last (trace (final (run_script desktop ["npvtest.py"] no_file)))
      = Some (Asked r (Raised (Exn "FileNotFoundError" "cube_full.csv"))).
Proof.
  apply (uncaught_comes_from_library desktop ["npvtest.py"] no_file
           (Exn "FileNotFoundError" "cube_full.csv")).
  vm_compute. reflexivity.
Defined.

(** X3: every global is assigned at most once and never rebound, so the
    globals at the end of any execution are exactly the bindings made, in
    the order of the source: a prefix of [NpvCube], [plt], [Axes3D],
    [csv_file], [npv], [trade], [fig], [ax]. *)
Theorem X3_globals_are_bound_once
    {World : Type} (lib : request -> World -> outcome * World)
    (argv : list string) (w : World) :
  globals (final (run_script lib argv w))
    = globals_of (trace (final (run_script lib argv w))) /\
  List.NoDup (map fst (bindings (trace (final (run_script lib argv w))))) /\
  exists later,
    ["NpvCube"; "plt"; "Axes3D"; "csv_file"; "npv"; "trade"; "fig"; "ax"]
      = map fst (bindings (trace (final (run_script lib argv w)))) ++ later.
Proof.
  by_execution lib argv w; (split; [ reflexivity | split ]).
  all: try (eexists; cbn; reflexivity).
  all: cbn;
    repeat (constructor;
            [ let Hx := fresh "Hx" in
              intros Hx; cbn in Hx;
              repeat (destruct Hx as [Hx | Hx]; [ discriminate Hx | ]);
              exact Hx
            | ]).
  all: constructor.
Qed.

(** X4: the script calls only what its own earlier requests returned.  The
    class it instantiates is the one the import from [npvlib] returned;
    [figure] and [show] are called on the module the [pyplot] import
    returned; [add_subplot] on the figure [plt.figure()] returned;
    [plot_density] on the object the constructor returned. *)
Theorem X4_callees_come_from_earlier_answers
    {World : Type} (lib : request -> World -> outcome * World)
    (argv : list string) (w : World)
    (c : callee) (args : list value) (kw : list (string * value)) (o : outcome) :
  In (Asked (Invoke c args kw) o) (trace (final (run_script lib argv w))) ->
  comes_from c (trace (final (run_script lib argv w))).
Proof.
  intros Hin.
  by_execution lib argv w; each_event Hin; unfold comes_from.
  all: first
    [ split; [ reflexivity | found ]
    | left; split; [ reflexivity | found ]
    | right; left; split; [ reflexivity | exists plt; found ]
    | right; right; split; [ reflexivity | exists cls; found ] ].
Qed.

(** The render call of the run on the valid machine goes to the cube. *)
Lemma X4_witness :
  comes_from (ByAttr "npv" (VObj 3) "plot_density")
    (trace (final (run_script desktop ["npvtest.py"] valid_box))).
Proof.
  apply (X4_callees_come_from_earlier_answers desktop ["npvtest.py"] valid_box
           (ByAttr "npv" (VObj 3) "plot_density")
           [VStr "833397AI"; VObj 5; VFloat opacity] [] (Returned VNone)).
  vm_compute. repeat (first [left; reflexivity | right]).
Defined.

(** X6: the script makes at least one and at most eight requests, and it
    exits normally exactly when it made all eight and every one of them
    returned. *)
Theorem X6_normal_exit_means_eight_answers
    {World : Type} (lib : request -> World -> outcome * World)
    (argv : list string) (w : World) :
  1 <= length (requests (trace (final (run_script lib argv w)))) <= 8 /\
  (exit (run_script lib argv w) = ExitSuccess <->
   length (requests (trace (final (run_script lib argv w)))) = 8 /\
   forallb (fun a => returned (snd a))
     (asked (trace (final (run_script lib argv w)))) = true).
Proof.
  by_execution lib argv w; (split; [ cbn; lia | ]); split.
  all: try discriminate.
  all: try (intros [Hlen Hall]; cbn in Hlen, Hall;
            first [ discriminate Hlen | discriminate Hall ]).
  - intros _. split; reflexivity.
  - intros _. reflexivity.
Qed.

(** X7: an assignment from a call binds its name only when the call
    returns, and to what it returned: at the end of any execution [npv] is
    bound to [v] exactly when the constructor returned [v], [fig] exactly
    when [plt.figure()] returned it, [ax] exactly when [add_subplot]
    returned it. *)
Theorem X7_names_hold_what_their_calls_returned
    {World : Type} (lib : request -> World -> outcome * World)
    (argv : list string) (w : World) (v : value) :
  (globals (final (run_script lib argv w)) !! "npv" = Some v <->
   exists r, is_cube_ctor r = true /\
     In (Asked r (Returned v)) (trace (final (run_script lib argv w)))) /\
  (globals (final (run_script lib argv w)) !! "fig" = Some v <->
   exists r, is_figure r = true /\
     In (Asked r (Returned v)) (trace (final (run_script lib argv w)))) /\
  (globals (final (run_script lib argv w)) !! "ax" = Some v <->
   exists r, is_surface r = true /\
     In (Asked r (Returned v)) (trace (final (run_script lib argv w)))).
Proof.
  by_execution lib argv w; repeat split.
  all: try (intros Hg; vm_compute in Hg; discriminate Hg).
  all: try (intros (r & Hr & Hin); each_event Hin; try discriminate Hr;
            vm_compute; reflexivity).
  all: intros Hg; vm_compute in Hg; inversion Hg; subst;
    first [ exists (new_cube cls); split; [ reflexivity | found ]
          | exists (new_figure plt); split; [ reflexivity | found ]
          | exists (new_surface fig); split; [ reflexivity | found ] ].
Qed.
